(** * FDIBridge: the ALB -> SQS bridge lambda ([bridge_lambda.py])

    A shallow embedding of the request forwarder and the properties its
    specification states about it.

    The Python module has five functions and one frozen dataclass.  The
    embedding keeps their names.  Values are the objects a decoded JSON
    event is made of; the calls that leave the process ([boto3.client],
    [send_message]) run in a small state-and-exception monad over a
    [world] that answers them and records them in a trace. *)

From Stdlib Require Import ZArith String Ascii List DecimalString Decimal.
From stdpp Require Import base option list strings gmap.

Open Scope string_scope.
Set Warnings "-register-all".

(** ** Python values *)

(** The objects [json.loads] can produce, which is what the hosting runtime
    hands to [handler] as [event].  A [dict] keeps its insertion order, which
    [json.dumps] follows, so it is an association list.  The characters of a
    [str] stand for the code points U+0000 to U+00FF.  A [float] is identified
    by the text [float.__repr__] gives for it (["0.0"], ["-0.0"], ["1.5"],
    ["nan"], ["inf"], ["-inf"], ...): the only two things this program does
    with a float are testing it for truth and printing it. *)
Inductive pyval : Type :=
| VNone
| VBool (b : bool)
| VInt (n : Z)
| VFloat (repr : string)
| VStr (s : string)
| VList (items : list pyval)
| VDict (entries : list (string * pyval)).

(** Exceptions.  [ClientError] stands for [botocore.exceptions.ClientError]
    and its subclasses, [text] being [str(e)].  Every other exception class is
    an [OtherError] tagged with its class name.  The module also declares a
    class [QueueError]; nothing in the module raises or catches it. *)
Inductive pyexn : Type :=
| ClientError (text : string)
| OtherError (class text : string).

(** Truth value of an object, as tested by [or], [not] and [if]. *)
Definition truthy (v : pyval) : bool :=
  match v with
  | VNone => false
  | VBool b => b
  | VInt n => negb (n =? 0)%Z
  | VFloat repr => negb (String.eqb repr "0.0" || String.eqb repr "-0.0")
  | VStr s => negb (String.eqb s "")
  | VList items => match items with [] => false | _ => true end
  | VDict entries => match entries with [] => false | _ => true end
  end.

(** [x or y] *)
Definition py_or (x y : pyval) : pyval := if truthy x then x else y.

(** [d[k]] when present *)
Fixpoint dict_lookup (d : list (string * pyval)) (k : string) : option pyval :=
  match d with
  | [] => None
  | (k', v) :: d' => if String.eqb k' k then Some v else dict_lookup d' k
  end.

(** [d.get(k, dflt)] *)
Definition dict_get (d : list (string * pyval)) (k : string) (dflt : pyval) : pyval :=
  default dflt (dict_lookup d k).

(** ** [json.dumps] with its default arguments

    [ensure_ascii=True], separators [", "] and [": "], no sorting of keys. *)

Definition dquote : string := String "034" "".

(** Writes ['] for the double quote, so that expected JSON texts can be read. *)
Fixpoint dq (s : string) : string :=
  match s with
  | EmptyString => EmptyString
  | String c s' => String (if Ascii.eqb c "'" then "034"%char else c) (dq s')
  end.

Definition hex_digit (d : N) : ascii :=
  if (d <? 10)%N then ascii_of_N (48 + d) else ascii_of_N (87 + d).

(** One character of a string literal: the two-character escapes, printable
    ASCII as it is, anything else as [\u00xx]. *)
Definition json_escape_char (c : ascii) : string :=
  let n := N_of_ascii c in
  if (n =? 34)%N then String "092" dquote
  else if (n =? 92)%N then "\\"
  else if (n =? 10)%N then "\n"
  else if (n =? 13)%N then "\r"
  else if (n =? 9)%N then "\t"
  else if (n =? 8)%N then "\b"
  else if (n =? 12)%N then "\f"
  else if ((32 <=? n) && (n <=? 126))%N then String c ""
  else "\u00" ++ String (hex_digit (n / 16)) (String (hex_digit (n mod 16)) "").

Fixpoint json_escape (s : string) : string :=
  match s with
  | EmptyString => EmptyString
  | String c s' => json_escape_char c ++ json_escape s'
  end.



Definition json_string (s : string) : string := dquote ++ json_escape s ++ dquote.

Definition json_float (repr : string) : string :=
  if String.eqb repr "nan" then "NaN"
  else if String.eqb repr "inf" then "Infinity"
  else if String.eqb repr "-inf" then "-Infinity"
  else repr.

(** [sep.join(parts)] *)
Fixpoint join (sep : string) (parts : list string) : string :=
  match parts with
  | [] => ""
  | [p] => p
  | p :: rest => p ++ sep ++ join sep rest
  end.

Fixpoint json_dumps (v : pyval) : string :=
  match v with
  | VNone => "null"
  | VBool true => "true"
  | VBool false => "false"
  | VInt n => NilZero.string_of_int (Z.to_int n)
  | VFloat repr => json_float repr
  | VStr s => json_string s
  | VList items => "[" ++ join ", " (map json_dumps items) ++ "]"
  | VDict entries =>
      "{" ++ join ", " (map (fun kv => json_string (fst kv) ++ ": " ++ json_dumps (snd kv)) entries) ++ "}"
  end.


(** ** The world outside the process *)

(** A call that leaves the process. *)
Inductive io_event : Type :=
| EClient (service : string)
| ESend (QueueUrl MessageBody : string).

(** What [send_message] does: it returns the service's response, a [dict], or
    it raises. *)
Inductive send_outcome : Type :=
| SendReturned (response : list (string * pyval))
| SendRaised (e : pyexn).

(** The process environment, the two services the module calls, and the calls
    made so far.  Both services may answer according to everything that
    happened before, so a second attempt could be answered differently from
    the first. *)
Record world : Type := mkWorld {
  environ : gmap string string;
  boto3_session : list io_event -> string -> option pyexn;
  sqs_service : list io_event -> string -> string -> send_outcome;
  trace : list io_event
}.

Definition log (e : io_event) (w : world) : world :=
  {| environ := environ w; boto3_session := boto3_session w;
     sqs_service := sqs_service w; trace := trace w ++ [e] |}.

(** [os.environ] replaced as a whole (any sequence of assignments and
    deletions), everything else left as it was. *)
Definition set_environ (env : gmap string string) (w : world) : world :=
  {| environ := env; boto3_session := boto3_session w;
     sqs_service := sqs_service w; trace := trace w |}.

(** [os.environ.get(k, dflt)] *)
Definition os_environ_get (w : world) (k dflt : string) : string :=
  default dflt (environ w !! k).

(** ** Computations: state and exceptions *)

Inductive result (A : Type) : Type :=
| Return (a : A)
| Raise (e : pyexn).
Arguments Return {A} a.
Arguments Raise {A} e.

Definition io (A : Type) : Type := world -> result A * world.

Definition ret {A} (a : A) : io A := fun w => (Return a, w).

Definition raise {A} (e : pyexn) : io A := fun w => (Raise e, w).

Definition bind {A B} (m : io A) (k : A -> io B) : io B :=
  fun w => match m w with
           | (Return a, w') => k a w'
           | (Raise e, w') => (Raise e, w')
           end.

(** stdpp's [x ← m; k] is sequencing, [' pat ← m; k] sequencing with a tuple
    taken apart. *)
#[export] Instance io_ret : MRet io := @ret.
#[export] Instance io_bind : MBind io := fun A B k m => bind m k.

(** [try: body  except ClientError as e: on_client_error(str(e))]: any other
    exception goes on to the caller. *)
Definition try_except_ClientError {A} (body : io A) (on_client_error : string -> io A) : io A :=
  fun w => match body w with
           | (Raise (ClientError text), w') => on_client_error text w'
           | other => other
           end.

(** [d[k]], raising [KeyError(k)] when the key is missing *)
Definition dict_getitem (d : list (string * pyval)) (k : string) : io pyval :=
  match dict_lookup d k with
  | Some v => ret v
  | None => raise (OtherError "KeyError" ("'" ++ k ++ "'"))
  end.

(** A client object, as built by [boto3.client(service)]. *)
Record client : Type := mkClient { service_name : string }.

Definition boto3_client (service : string) : io client :=
  fun w => match boto3_session w (trace w) service with
           | None => (Return (mkClient service), log (EClient service) w)
           | Some e => (Raise e, log (EClient service) w)
           end.

(** [sqs_client.send_message(QueueUrl=..., MessageBody=...)] *)
Definition send_message (sqs_client : client) (QueueUrl MessageBody : string)
  : io (list (string * pyval)) :=
  fun w => match sqs_service w (trace w) QueueUrl MessageBody with
           | SendReturned response => (Return response, log (ESend QueueUrl MessageBody) w)
           | SendRaised e => (Raise e, log (ESend QueueUrl MessageBody) w)
           end.

(** ** The module *)

(** The frozen dataclass: one field. *)
Record Config : Type := mkConfig { sqs_queue_url : string }.

(** What importing the module leaves behind: the default of [sqs_queue_url].
    The class body [sqs_queue_url: str = os.environ.get('SQS_QUEUE_URL', '')]
    is executed once, when the module is imported, and the value it yields is
    the default every later [Config()] takes. *)
Record bridge_lambda : Type := mkModule { Config_sqs_queue_url_default : string }.

Definition import_bridge_lambda (w : world) : bridge_lambda :=
  {| Config_sqs_queue_url_default := os_environ_get w "SQS_QUEUE_URL" "" |}.

(** [Config()] *)
Definition Config_new (md : bridge_lambda) : Config :=
  {| sqs_queue_url := Config_sqs_queue_url_default md |}.

Definition parse_query_parameters (event : list (string * pyval)) : pyval :=
  py_or (dict_get event "queryStringParameters" (VDict [])) (VDict []).

Definition send_to_sqs (sqs_client : client) (queue_url : string) (message : pyval)
  : io (bool * pyval * pyval) :=
  try_except_ClientError
    (response ← send_message sqs_client queue_url (json_dumps message);
     message_id ← dict_getitem response "MessageId";
     ret (true, message_id, VNone))
    (fun text => ret (false, VNone, VStr ("Failed to send message to SQS: " ++ text))).


Definition create_response (status_code : Z) (body : pyval) : pyval :=
  VDict [("statusCode", VInt status_code);
         ("headers", VDict [("Content-Type", VStr "application/json")]);
         ("body", VStr (json_dumps body))].

Definition success_message : string :=
  "Weekly summary draft and MyChart message draft successfully requested. Please allow 10-15 seconds delay and move to Chart Review and look for the drafts.".

Definition handler (md : bridge_lambda) (event : list (string * pyval)) (context : pyval)
  : io pyval :=
  let config := Config_new md in
  if negb (truthy (VStr (sqs_queue_url config))) then
    ret (create_response 500 (VDict [("message", VStr "Missing SQS queue URL configuration")]))
  else
    sqs_client ← boto3_client "sqs";
    let query_params := parse_query_parameters event in
    '(success, message_id, error) ← send_to_sqs sqs_client (sqs_queue_url config) query_params;
    if success : bool then
      ret (create_response 200 (VDict [("message", VStr success_message)]))
    else
      ret (create_response 500 (VDict [("message", error)])).

(** ** Sample worlds and events *)

Definition queue_address : string :=
  "https://sqs.us-east-1.amazonaws.com/123456789012/fdi-bridge".

Definition env_unset : gmap string string := ∅.
Definition env_set : gmap string string := {[ "SQS_QUEUE_URL" := queue_address ]}.

(** A service that takes every message. *)
Definition sqs_accepts (history : list io_event) (QueueUrl MessageBody : string) : send_outcome :=
  SendReturned [("MD5OfMessageBody", VStr "99914b932bd37a50b983c5e7c90ae93b");
                ("MessageId", VStr "b5293cb5-d306-4a17-9048-b263635abe42")].

(** A service that rejects every message with a [ClientError]. *)
Definition sqs_rejects (history : list io_event) (QueueUrl MessageBody : string) : send_outcome :=
  SendRaised (ClientError "An error occurred (AccessDenied) when calling the SendMessage operation: Access to the resource is denied.").


(** A fresh process: nothing called yet, clients can be built. *)
Definition fresh (env : gmap string string)
    (service : list io_event -> string -> string -> send_outcome) : world :=
  {| environ := env; boto3_session := fun _ _ => None; sqs_service := service; trace := [] |}.

Definition event_ab : list (string * pyval) :=
  [("queryStringParameters", VDict [("a", VStr "1"); ("b", VStr "2")])].

Definition event_ab_get : list (string * pyval) :=
  [("httpMethod", VStr "GET"); ("path", VStr "/bridge");
   ("queryStringParameters", VDict [("a", VStr "1"); ("b", VStr "2")]);
   ("isBase64Encoded", VBool false)].

Definition event_none : list (string * pyval) := [].

Definition event_null : list (string * pyval) :=
  [("httpMethod", VStr "GET"); ("queryStringParameters", VNone)].


(** The text of the [ClientError] that [sqs_rejects] raises. *)
Definition access_denied : string :=
  "An error occurred (AccessDenied) when calling the SendMessage operation: Access to the resource is denied.".

(** A service that answers without a ["MessageId"]. *)
Definition sqs_accepts_without_id (history : list io_event) (QueueUrl MessageBody : string)
  : send_outcome :=
  SendReturned [("MD5OfMessageBody", VStr "99914b932bd37a50b983c5e7c90ae93b")].

(** A process in which no client can be built: no region is configured. *)
Definition no_region (env : gmap string string)
    (service : list io_event -> string -> string -> send_outcome) : world :=
  {| environ := env;
     boto3_session := fun _ _ => Some (OtherError "NoRegionError" "You must specify a region.");
     sqs_service := service; trace := [] |}.

(** The sends of a trace, in order: address and body of each. *)
Fixpoint sends (events : list io_event) : list (string * string) :=
  match events with
  | [] => []
  | ESend QueueUrl MessageBody :: rest => (QueueUrl, MessageBody) :: sends rest
  | EClient _ :: rest => sends rest
  end.




(** ** The text [json.dumps] writes *)





(** ** Running the operations *)

Section Runs.

Variables (md : bridge_lambda) (event : list (string * pyval)) (context : pyval).

Let url := sqs_queue_url (Config_new md).
Let payload := json_dumps (parse_query_parameters event).

(** [send_to_sqs] in one step: one call of the service, then the three ways
    out. *)
Lemma send_to_sqs_run (c : client) (queue_url : string) (message : pyval) (w : world) :
  send_to_sqs c queue_url message w =
  (match sqs_service w (trace w) queue_url (json_dumps message) with
   | SendReturned response =>
       match dict_lookup response "MessageId" with
       | Some message_id => Return (true, message_id, VNone)
       | None => Raise (OtherError "KeyError" "'MessageId'")
       end
   | SendRaised (ClientError text) =>
       Return (false, VNone, VStr ("Failed to send message to SQS: " ++ text))
   | SendRaised (OtherError class text) => Raise (OtherError class text)
   end,
   log (ESend queue_url (json_dumps message)) w).
Proof.
  unfold send_to_sqs, try_except_ClientError, mbind, io_bind, bind, send_message, dict_getitem.
  destruct (sqs_service w (trace w) queue_url (json_dumps message)) as [response | [text | class text]];
    try reflexivity.
  destruct (dict_lookup response "MessageId"); reflexivity.
Qed.

Lemma handler_run_missing (w : world) :
  url = "" ->
  handler md event context w =
  (Return (create_response 500 (VDict [("message", VStr "Missing SQS queue URL configuration")])), w).
Proof.
  subst url. unfold handler. intros ->. reflexivity.
Qed.

Lemma handler_run_configured (w : world) :
  url <> "" ->
  handler md event context w =
  match boto3_session w (trace w) "sqs" with
  | Some e => (Raise e, log (EClient "sqs") w)
  | None =>
      let w1 := log (EClient "sqs") w in
      (match sqs_service w (trace w1) url payload with
       | SendReturned response =>
           match dict_lookup response "MessageId" with
           | Some _ => Return (create_response 200 (VDict [("message", VStr success_message)]))
           | None => Raise (OtherError "KeyError" "'MessageId'")
           end
       | SendRaised (ClientError text) =>
           Return (create_response 500
                     (VDict [("message", VStr ("Failed to send message to SQS: " ++ text))]))
       | SendRaised (OtherError class text) => Raise (OtherError class text)
       end,
       log (ESend url payload) w1)
  end.
Proof.
  subst url payload. intros Hurl. pose proof Hurl as Hurl'.
  unfold handler. apply String.eqb_neq in Hurl'. cbn [truthy]. rewrite Hurl'. cbn [negb].
  unfold mbind, io_bind, bind at 1, boto3_client.
  destruct (boto3_session w (trace w) "sqs") as [e |]; [reflexivity |].
  unfold bind. rewrite send_to_sqs_run. cbn [sqs_service log trace].
  destruct (sqs_service w _ _ _) as [response | [text | class text]]; try reflexivity.
  destruct (dict_lookup response "MessageId"); reflexivity.
Qed.

End Runs.

(** Takes [handler] past the configuration test, given that the address is
    not empty, and opens the sequencing that follows. *)
Ltac enter_handler Hurl :=
  let H := fresh "Hnonempty" in
  pose proof Hurl as H; apply String.eqb_neq in H;
  unfold handler; cbn [truthy]; rewrite H; cbn [negb];
  unfold mbind, io_bind, bind; clear H.

(** ** Configuration *)

(** The address a [Config()] holds is empty exactly when the variable was
    unset or empty at import. *)
Lemma Config_empty_iff_unset_or_empty (w_import : world) :
  sqs_queue_url (Config_new (import_bridge_lambda w_import)) = "" <->
  environ w_import !! "SQS_QUEUE_URL" = None \/ environ w_import !! "SQS_QUEUE_URL" = Some "".
Proof.
  unfold Config_new, import_bridge_lambda, os_environ_get; cbn.
  destruct (environ w_import !! "SQS_QUEUE_URL") as [s |]; cbn; split.
  - intros ->. now right.
  - intros [H | H]; [discriminate | now injection H].
  - now left.
  - reflexivity.
Qed.

(** C1.  Whatever the event, when the configured queue address is empty (the
    variable was empty or unset), [handler] returns the 500 response whose body
    is [{"message": "Missing SQS queue URL configuration"}] and leaves the
    world as it found it: no client is built and nothing is sent. *)
Theorem handler_missing_queue_url_fails_fast
    (md : bridge_lambda) (event : list (string * pyval)) (context : pyval) (w : world) :
  sqs_queue_url (Config_new md) = "" ->
  handler md event context w =
    (Return (VDict [("statusCode", VInt 500);
                    ("headers", VDict [("Content-Type", VStr "application/json")]);
                    ("body", VStr (dq "{'message': 'Missing SQS queue URL configuration'}"))]),
     w)
  /\ trace (snd (handler md event context w)) = trace w.
Proof.
  intros Hurl. rewrite handler_run_missing by exact Hurl. split; reflexivity.
Qed.


(** C3.  With a non-empty queue address, when the send succeeds ([send_to_sqs]
    gives a true success flag), [handler] returns status 200 with the fixed
    success message, the same for every event. *)
Theorem handler_send_success_response
    (md : bridge_lambda) (event : list (string * pyval)) (context : pyval)
    (w w1 w2 : world) (sqs_client : client) (message_id error : pyval) :
  sqs_queue_url (Config_new md) <> "" ->
  boto3_client "sqs" w = (Return sqs_client, w1) ->
  send_to_sqs sqs_client (sqs_queue_url (Config_new md)) (parse_query_parameters event) w1
    = (Return (true, message_id, error), w2) ->
  handler md event context w =
    (Return (VDict [("statusCode", VInt 200);
                    ("headers", VDict [("Content-Type", VStr "application/json")]);
                    ("body", VStr (dq "{'message': 'Weekly summary draft and MyChart message draft successfully requested. Please allow 10-15 seconds delay and move to Chart Review and look for the drafts.'}"))]),
     w2).
Proof.
  intros Hurl Hclient Hsend. enter_handler Hurl. rewrite Hclient, Hsend. reflexivity.
Qed.

(** ** The forwarded payload *)

Lemma parse_query_parameters_lookup (event1 event2 : list (string * pyval)) :
  dict_lookup event1 "queryStringParameters" = dict_lookup event2 "queryStringParameters" ->
  parse_query_parameters event1 = parse_query_parameters event2.
Proof.
  unfold parse_query_parameters, dict_get. now intros ->.
Qed.

(** What [or] lets through: a true value under the key is forwarded as it is,
    mapping or not. *)
Lemma parse_query_parameters_truthy (event : list (string * pyval)) (v : pyval) :
  dict_lookup event "queryStringParameters" = Some v ->
  truthy v = true ->
  parse_query_parameters event = v.
Proof.
  unfold parse_query_parameters, dict_get, py_or. intros -> Hv. cbn. now rewrite Hv.
Qed.

(** C4.  For an event whose [queryStringParameters] is missing or is the empty
    mapping, the payload is the empty mapping, its text is [{}], and the call
    [send_to_sqs] makes for it carries exactly that text as [MessageBody]. *)
Theorem empty_query_parameters_forward_empty_object (event : list (string * pyval)) :
  dict_lookup event "queryStringParameters" = None \/
  dict_lookup event "queryStringParameters" = Some (VDict []) ->
  parse_query_parameters event = VDict [] /\
  json_dumps (parse_query_parameters event) = "{}" /\
  forall (sqs_client : client) (queue_url : string) (w : world),
    trace (snd (send_to_sqs sqs_client queue_url (parse_query_parameters event) w))
    = (trace w ++ [ESend queue_url "{}"])%list.
Proof.
  intros Hq.
  assert (Hp : parse_query_parameters event = VDict []).
  { unfold parse_query_parameters, dict_get. destruct Hq as [-> | ->]; reflexivity. }
  rewrite Hp. repeat split. intros c queue_url w. now rewrite send_to_sqs_run.
Qed.

(** C10.  When [queryStringParameters] is present and holds [None], or any
    other false value, [parse_query_parameters] gives the empty mapping, not
    the value found, and the text forwarded is [{}]. *)
Theorem parse_query_parameters_falsy_gives_empty_dict
    (event : list (string * pyval)) (v : pyval) :
  dict_lookup event "queryStringParameters" = Some v ->
  truthy v = false ->
  parse_query_parameters event = VDict [] /\
  parse_query_parameters event <> VNone /\
  json_dumps (parse_query_parameters event) = "{}".
Proof.
  intros Hv Hfalse.
  assert (Hp : parse_query_parameters event = VDict []).
  { unfold parse_query_parameters, dict_get, py_or. rewrite Hv. cbn. now rewrite Hfalse. }
  rewrite Hp. repeat split. discriminate.
Qed.

(** C8.  Two events that agree on [queryStringParameters] (both lack it, or
    both hold the same value there) give, in the same world and under the same
    configuration, the same result and the same final world, whatever their
    other fields and whatever the context: the same response or exception,
    and the same calls with the same payload. *)
Theorem handler_consumes_only_query_parameters
    (md : bridge_lambda) (event1 event2 : list (string * pyval))
    (context1 context2 : pyval) (w : world) :
  dict_lookup event1 "queryStringParameters" = dict_lookup event2 "queryStringParameters" ->
  parse_query_parameters event1 = parse_query_parameters event2 /\
  handler md event1 context1 w = handler md event2 context2 w.
Proof.
  intros Hq. apply parse_query_parameters_lookup in Hq. split; [exact Hq |].
  unfold handler. now rewrite Hq.
Qed.

(** ** Responses *)

(** C6.  Every response [handler] returns has an integer [statusCode] (200 or
    500), the headers [{"Content-Type": "application/json"}], and as body the
    JSON text of [{"message": m}] for a string [m]. *)
Theorem handler_response_shape
    (md : bridge_lambda) (event : list (string * pyval)) (context : pyval)
    (w : world) (response : pyval) :
  fst (handler md event context w) = Return response ->
  exists (status_code : Z) (m : string),
    (status_code = 200 \/ status_code = 500)%Z /\
    response = VDict [("statusCode", VInt status_code);
                      ("headers", VDict [("Content-Type", VStr "application/json")]);
                      ("body", VStr (json_dumps (VDict [("message", VStr m)])))] /\
    json_dumps (VDict [("message", VStr m)]) = dq "{'message': " ++ json_string m ++ "}".
Proof.
  destruct (String.eqb_spec (sqs_queue_url (Config_new md)) "") as [Hurl | Hurl].
  - rewrite handler_run_missing by exact Hurl. cbn [fst]. intros [= <-].
    exists 500%Z, "Missing SQS queue URL configuration". auto.
  - rewrite handler_run_configured by exact Hurl.
    destruct (boto3_session w (trace w) "sqs"); [discriminate |]. cbn zeta.
    destruct (sqs_service w _ _ _) as [resp | [text | class text]]; cbn [fst].
    + destruct (dict_lookup resp "MessageId"); [| discriminate]. intros [= <-].
      exists 200%Z, success_message. auto.
    + intros [= <-]. exists 500%Z, ("Failed to send message to SQS: " ++ text). auto.
    + discriminate.
Qed.

(** ** Sending *)

(** A response without ["MessageId"] makes [send_to_sqs] raise [KeyError],
    which nothing catches. *)
Lemma send_to_sqs_missing_MessageId
    (c : client) (queue_url : string) (message : pyval) (w : world)
    (response : list (string * pyval)) :
  sqs_service w (trace w) queue_url (json_dumps message) = SendReturned response ->
  dict_lookup response "MessageId" = None ->
  fst (send_to_sqs c queue_url message w) = Raise (OtherError "KeyError" "'MessageId'").
Proof.
  intros Hs Hk. rewrite send_to_sqs_run, Hs, Hk. reflexivity.
Qed.

(** The success flag is true exactly when the service returned a response
    that carries a ["MessageId"]. *)
Lemma send_to_sqs_success_iff
    (c : client) (queue_url : string) (message : pyval) (w : world) :
  (exists message_id error,
      fst (send_to_sqs c queue_url message w) = Return (true, message_id, error))
  <->
  (exists response message_id,
      fst (send_message c queue_url (json_dumps message) w) = Return response /\
      dict_lookup response "MessageId" = Some message_id).
Proof.
  rewrite send_to_sqs_run. unfold send_message.
  destruct (sqs_service w (trace w) queue_url (json_dumps message))
    as [response | [text | class text]]; cbn [fst].
  - destruct (dict_lookup response "MessageId") as [mid |] eqn:Hk; split.
    + intros _. exists response, mid. auto.
    + intros _. eauto.
    + intros (? & ? & [=]).
    + intros (r & mid & [= <-] & Hmid). congruence.
  - split; [intros (? & ? & [=]) | intros (? & ? & [=] & _)].
  - split; [intros (? & ? & [=]) | intros (? & ? & [=] & _)].
Qed.



(** ** Where the address comes from *)

(** [handler] does not look at [os.environ]: replacing the environment before
    the call changes nothing but the environment it leaves. *)
Lemma handler_ignores_environ
    (md : bridge_lambda) (event : list (string * pyval)) (context : pyval)
    (env : gmap string string) (w : world) :
  handler md event context (set_environ env w) =
  (fst (handler md event context w), set_environ env (snd (handler md event context w))).
Proof.
  destruct (String.eqb_spec (sqs_queue_url (Config_new md)) "") as [Hurl | Hurl].
  - rewrite !handler_run_missing by exact Hurl. reflexivity.
  - rewrite !handler_run_configured by exact Hurl. cbn [set_environ boto3_session trace].
    destruct (boto3_session w (trace w) "sqs"); [reflexivity |]. cbn zeta.
    cbn [sqs_service log trace set_environ fst snd]. reflexivity.
Qed.

(** The calls [handler] adds to the trace. *)
Lemma handler_trace
    (md : bridge_lambda) (event : list (string * pyval)) (context : pyval) (w : world) :
  trace (snd (handler md event context w)) = trace w \/
  trace (snd (handler md event context w)) = (trace w ++ [EClient "sqs"])%list \/
  trace (snd (handler md event context w))
  = (trace w ++ [EClient "sqs";
                 ESend (sqs_queue_url (Config_new md))
                       (json_dumps (parse_query_parameters event))])%list.
Proof.
  destruct (String.eqb_spec (sqs_queue_url (Config_new md)) "") as [Hurl | Hurl].
  - left. now rewrite handler_run_missing.
  - right. rewrite handler_run_configured by exact Hurl.
    destruct (boto3_session w (trace w) "sqs"); [left; reflexivity | right].
    cbn [snd log trace]. now rewrite <- app_assoc.
Qed.

(** C5, as amended.  The address [handler] uses is the value the variable
    [SQS_QUEUE_URL] had when the module was imported (empty if it was unset
    then).  [handler] does not read the environment: with the environment
    replaced before the call it returns the same result and makes the same
    calls.  The address does not change during the call: a send [handler]
    makes goes to that same address. *)
Theorem config_address_fixed_at_import
    (w_import : world) (event : list (string * pyval)) (context : pyval) (w : world) :
  sqs_queue_url (Config_new (import_bridge_lambda w_import))
  = os_environ_get w_import "SQS_QUEUE_URL" "" /\
  (forall env : gmap string string,
      handler (import_bridge_lambda w_import) event context (set_environ env w) =
      (fst (handler (import_bridge_lambda w_import) event context w),
       set_environ env (snd (handler (import_bridge_lambda w_import) event context w)))) /\
  (forall QueueUrl MessageBody,
      In (ESend QueueUrl MessageBody)
         (trace (snd (handler (import_bridge_lambda w_import) event context w))) ->
      In (ESend QueueUrl MessageBody) (trace w) \/
      QueueUrl = os_environ_get w_import "SQS_QUEUE_URL" "").
Proof.
  split; [reflexivity | split].
  - intros env. apply handler_ignores_environ.
  - intros QueueUrl MessageBody.
    destruct (handler_trace (import_bridge_lambda w_import) event context w) as [-> | [-> | ->]].
    + now left.
    + rewrite in_app_iff. intros [H | [H | []]]; [now left | discriminate].
    + rewrite in_app_iff. intros [H | [H | [H | []]]]; [now left | discriminate |].
      right. now injection H as <- _.
Qed.

(** C5, as stated, fails.  The module is imported while [SQS_QUEUE_URL] is
    unset and the variable is set before the call: the address [handler] uses
    is still the empty one, not the value of the variable at the time of the
    call, and it answers that the configuration is missing. *)
Lemma config_not_read_at_invocation :
  os_environ_get (set_environ env_set (fresh env_unset sqs_accepts)) "SQS_QUEUE_URL" ""
  = queue_address /\
  sqs_queue_url (Config_new (import_bridge_lambda (fresh env_unset sqs_accepts)))
  <> os_environ_get (set_environ env_set (fresh env_unset sqs_accepts)) "SQS_QUEUE_URL" "" /\
  fst (handler (import_bridge_lambda (fresh env_unset sqs_accepts)) event_ab VNone
               (set_environ env_set (fresh env_unset sqs_accepts)))
  = Return (create_response 500
              (VDict [("message", VStr "Missing SQS queue URL configuration")])).
Proof.
  split; [reflexivity | split; [discriminate | reflexivity]].
Qed.

(** ** The theorems at sample inputs *)

Lemma handler_missing_queue_url_fails_fast_witness :
  sqs_queue_url (Config_new (import_bridge_lambda (fresh env_unset sqs_accepts))) = "" /\
  (handler (import_bridge_lambda (fresh env_unset sqs_accepts)) event_none VNone
           (fresh env_unset sqs_accepts)
   = (Return (VDict [("statusCode", VInt 500);
                     ("headers", VDict [("Content-Type", VStr "application/json")]);
                     ("body", VStr (dq "{'message': 'Missing SQS queue URL configuration'}"))]),
      fresh env_unset sqs_accepts)
   /\ trace (snd (handler (import_bridge_lambda (fresh env_unset sqs_accepts)) event_none VNone
                          (fresh env_unset sqs_accepts)))
      = trace (fresh env_unset sqs_accepts)).
Proof.
  split; [reflexivity |].
  apply (handler_missing_queue_url_fails_fast
           (import_bridge_lambda (fresh env_unset sqs_accepts)) event_none VNone
           (fresh env_unset sqs_accepts)).
  reflexivity.
Defined.


Lemma handler_send_success_response_witness :
  handler (import_bridge_lambda (fresh env_set sqs_accepts)) event_ab VNone
          (fresh env_set sqs_accepts)
  = (Return (VDict [("statusCode", VInt 200);
                    ("headers", VDict [("Content-Type", VStr "application/json")]);
                    ("body", VStr (dq "{'message': 'Weekly summary draft and MyChart message draft successfully requested. Please allow 10-15 seconds delay and move to Chart Review and look for the drafts.'}"))]),
     log (ESend queue_address (dq "{'a': '1', 'b': '2'}"))
         (log (EClient "sqs") (fresh env_set sqs_accepts))).
Proof.
  apply (handler_send_success_response
           (import_bridge_lambda (fresh env_set sqs_accepts)) event_ab VNone
           (fresh env_set sqs_accepts)
           (log (EClient "sqs") (fresh env_set sqs_accepts))
           (log (ESend queue_address (dq "{'a': '1', 'b': '2'}"))
                (log (EClient "sqs") (fresh env_set sqs_accepts)))
           (mkClient "sqs") (VStr "b5293cb5-d306-4a17-9048-b263635abe42") VNone).
  - discriminate.
  - reflexivity.
  - reflexivity.
Defined.

Lemma empty_query_parameters_forward_empty_object_witness :
  parse_query_parameters event_none = VDict [] /\
  json_dumps (parse_query_parameters event_none) = "{}" /\
  trace (snd (send_to_sqs (mkClient "sqs") queue_address (parse_query_parameters event_none)
                          (fresh env_set sqs_accepts)))
  = [ESend queue_address "{}"].
Proof.
  destruct (empty_query_parameters_forward_empty_object event_none (or_introl eq_refl))
    as (Hp & Hj & Ht).
  split; [exact Hp | split; [exact Hj |]].
  exact (Ht (mkClient "sqs") queue_address (fresh env_set sqs_accepts)).
Defined.

Lemma parse_query_parameters_falsy_gives_empty_dict_witness :
  dict_lookup event_null "queryStringParameters" = Some VNone /\
  parse_query_parameters event_null = VDict [] /\
  parse_query_parameters event_null <> VNone /\
  json_dumps (parse_query_parameters event_null) = "{}".
Proof.
  split; [reflexivity |].
  exact (parse_query_parameters_falsy_gives_empty_dict event_null VNone eq_refl eq_refl).
Defined.

Lemma handler_consumes_only_query_parameters_witness :
  event_ab <> event_ab_get /\
  parse_query_parameters event_ab = parse_query_parameters event_ab_get /\
  handler (import_bridge_lambda (fresh env_set sqs_accepts)) event_ab VNone
          (fresh env_set sqs_accepts)
  = handler (import_bridge_lambda (fresh env_set sqs_accepts)) event_ab_get (VStr "context")
            (fresh env_set sqs_accepts).
Proof.
  split; [discriminate |].
  exact (handler_consumes_only_query_parameters
           (import_bridge_lambda (fresh env_set sqs_accepts)) event_ab event_ab_get
           VNone (VStr "context") (fresh env_set sqs_accepts) eq_refl).
Defined.

Lemma handler_response_shape_witness :
  exists (status_code : Z) (m : string),
    (status_code = 200 \/ status_code = 500)%Z /\
    create_response 500
      (VDict [("message", VStr "Failed to send message to SQS: An error occurred (AccessDenied) when calling the SendMessage operation: Access to the resource is denied.")])
    = VDict [("statusCode", VInt status_code);
             ("headers", VDict [("Content-Type", VStr "application/json")]);
             ("body", VStr (json_dumps (VDict [("message", VStr m)])))] /\
    json_dumps (VDict [("message", VStr m)]) = dq "{'message': " ++ json_string m ++ "}".
Proof.
  exact (handler_response_shape
           (import_bridge_lambda (fresh env_set sqs_rejects)) event_ab VNone
           (fresh env_set sqs_rejects) _ eq_refl).
Defined.



Lemma config_address_fixed_at_import_witness :
  sqs_queue_url (Config_new (import_bridge_lambda (fresh env_set sqs_accepts))) = queue_address /\
  handler (import_bridge_lambda (fresh env_set sqs_accepts)) event_ab VNone
          (set_environ env_unset (fresh env_set sqs_accepts))
  = (Return (create_response 200 (VDict [("message", VStr success_message)])),
     set_environ env_unset
       (log (ESend queue_address (dq "{'a': '1', 'b': '2'}"))
            (log (EClient "sqs") (fresh env_set sqs_accepts)))).
Proof.
  destruct (config_address_fixed_at_import (fresh env_set sqs_accepts) event_ab VNone
              (fresh env_set sqs_accepts)) as (Haddr & Henv & _).
  split; [exact Haddr |].
  rewrite (Henv env_unset). reflexivity.
Defined.

(** ** Further properties of the module *)


(** X2.  The tuple [send_to_sqs] returns keeps what its docstring says.  With
    a true flag the identifier is the response's ["MessageId"] and the error is
    [None]; with a false flag the identifier is [None] and the error is the
    text ["Failed to send message to SQS: "] followed by the text of the
    [ClientError] the service raised. *)
Theorem send_to_sqs_outcome_invariant
    (c : client) (queue_url : string) (message : pyval) (w : world)
    (success : bool) (message_id error : pyval) :
  fst (send_to_sqs c queue_url message w) = Return (success, message_id, error) ->
  (success = true /\ error = VNone /\
   exists response,
     sqs_service w (trace w) queue_url (json_dumps message) = SendReturned response /\
     dict_lookup response "MessageId" = Some message_id)
  \/
  (success = false /\ message_id = VNone /\
   exists text,
     sqs_service w (trace w) queue_url (json_dumps message) = SendRaised (ClientError text) /\
     error = VStr ("Failed to send message to SQS: " ++ text)).
Proof.
  rewrite send_to_sqs_run.
  destruct (sqs_service w (trace w) queue_url (json_dumps message))
    as [response | [text | class text]]; cbn [fst].
  - destruct (dict_lookup response "MessageId") as [mid |] eqn:Hk; [| discriminate].
    intros [= <- <- <-]. left. eauto.
  - intros [= <- <- <-]. right. eauto.
  - discriminate.
Qed.

(** X3.  [handler] answers 200 exactly when an address is configured, the
    client could be built, and the service returned a response that carries a
    ["MessageId"]: success is never reported for a message the service did
    not take. *)
Theorem handler_reports_success_iff
    (md : bridge_lambda) (event : list (string * pyval)) (context : pyval) (w : world) :
  (exists body, fst (handler md event context w) = Return (create_response 200 body))
  <->
  (sqs_queue_url (Config_new md) <> "" /\
   boto3_session w (trace w) "sqs" = None /\
   exists response message_id,
     sqs_service w (trace w ++ [EClient "sqs"])%list (sqs_queue_url (Config_new md))
                 (json_dumps (parse_query_parameters event))
     = SendReturned response /\
     dict_lookup response "MessageId" = Some message_id).
Proof.
  destruct (String.eqb_spec (sqs_queue_url (Config_new md)) "") as [Hurl | Hurl].
  - rewrite handler_run_missing by exact Hurl. cbn [fst]. split.
    + intros (body & [=]).
    + intros (Hne & _). contradiction.
  - rewrite handler_run_configured by exact Hurl.
    destruct (boto3_session w (trace w) "sqs") as [e |]; cbn zeta; cbn [fst log trace].
    + split; [intros (body & [=]) | intros (_ & [=] & _)].
    + destruct (sqs_service w _ _ _) as [response | [text | class text]].
      * destruct (dict_lookup response "MessageId") as [mid |] eqn:Hk; split.
        -- intros _. repeat split; eauto.
        -- intros _. eauto.
        -- intros (body & [=]).
        -- intros (_ & _ & r & mid & [= <-] & Hmid). congruence.
      * split; [intros (body & [=]) | intros (_ & _ & r & mid & [=] & _)].
      * split; [intros (body & [=]) | intros (_ & _ & r & mid & [=] & _)].
Qed.


Lemma sends_app (events1 events2 : list io_event) :
  sends (events1 ++ events2) = (sends events1 ++ sends events2)%list.
Proof.
  induction events1 as [| [service | u b] rest IH]; cbn; [reflexivity | exact IH | now rewrite IH].
Qed.

(** X5.  When the client cannot be built, [handler] raises what
    [boto3.client] raised, a [ClientError] included, and stops there: the
    service is not called. *)
Theorem handler_client_failure_no_send
    (md : bridge_lambda) (event : list (string * pyval)) (context : pyval) (w : world)
    (e : pyexn) :
  sqs_queue_url (Config_new md) <> "" ->
  boto3_session w (trace w) "sqs" = Some e ->
  handler md event context w = (Raise e, log (EClient "sqs") w) /\
  sends (trace (snd (handler md event context w))) = sends (trace w).
Proof.
  intros Hurl Hclient. rewrite handler_run_configured by exact Hurl. rewrite Hclient.
  split; [reflexivity |]. cbn [snd log trace].
  rewrite sends_app. apply app_nil_r.
Qed.

(** X6.  When the service takes the message and answers without a
    ["MessageId"], the message has been sent and [handler] raises the
    [KeyError] of the lookup: the caller gets no response for a message that
    is in the queue. *)
Theorem handler_response_without_MessageId
    (md : bridge_lambda) (event : list (string * pyval)) (context : pyval) (w : world)
    (response : list (string * pyval)) :
  sqs_queue_url (Config_new md) <> "" ->
  boto3_session w (trace w) "sqs" = None ->
  sqs_service w (trace w ++ [EClient "sqs"])%list (sqs_queue_url (Config_new md))
              (json_dumps (parse_query_parameters event))
  = SendReturned response ->
  dict_lookup response "MessageId" = None ->
  handler md event context w =
  (Raise (OtherError "KeyError" "'MessageId'"),
   log (ESend (sqs_queue_url (Config_new md)) (json_dumps (parse_query_parameters event)))
       (log (EClient "sqs") w)).
Proof.
  intros Hurl Hclient Hsend Hk. rewrite handler_run_configured by exact Hurl.
  rewrite Hclient. cbn zeta. cbn [log trace]. now rewrite Hsend, Hk.
Qed.



(** X9.  The diagnosis in the body can be trusted: [handler] returns the
    response that says the configuration is missing exactly when the
    configured address is empty.  A failed send never produces it, whatever
    text the service gives. *)
Theorem handler_missing_response_iff
    (md : bridge_lambda) (event : list (string * pyval)) (context : pyval) (w : world) :
  fst (handler md event context w)
  = Return (create_response 500
              (VDict [("message", VStr "Missing SQS queue URL configuration")]))
  <-> sqs_queue_url (Config_new md) = "".
Proof.
  split.
  - destruct (String.eqb_spec (sqs_queue_url (Config_new md)) "") as [Hurl | Hurl];
      [intros _; exact Hurl |].
    rewrite handler_run_configured by exact Hurl.
    destruct (boto3_session w (trace w) "sqs") as [e |]; cbn zeta; cbn [fst]; [discriminate |].
    destruct (sqs_service w _ _ _) as [response | [text | class text]].
    + destruct (dict_lookup response "MessageId"); discriminate.
    + intros [=].
    + discriminate.
  - intros Hurl. now rewrite handler_run_missing.
Qed.








(** ** The further properties at sample inputs *)

Lemma send_to_sqs_outcome_invariant_witness :
  fst (send_to_sqs (mkClient "sqs") queue_address (parse_query_parameters event_ab)
                   (fresh env_set sqs_rejects))
  = Return (false, VNone, VStr ("Failed to send message to SQS: " ++ access_denied)) /\
  ((false = true /\ VStr ("Failed to send message to SQS: " ++ access_denied) = VNone /\
    exists response,
      sqs_rejects [] queue_address (dq "{'a': '1', 'b': '2'}") = SendReturned response /\
      dict_lookup response "MessageId" = Some VNone)
   \/
   (false = false /\ VNone = VNone /\
    exists text,
      sqs_rejects [] queue_address (dq "{'a': '1', 'b': '2'}") = SendRaised (ClientError text) /\
      VStr ("Failed to send message to SQS: " ++ access_denied)
      = VStr ("Failed to send message to SQS: " ++ text))).
Proof.
  split; [reflexivity |].
  exact (send_to_sqs_outcome_invariant (mkClient "sqs") queue_address
           (parse_query_parameters event_ab) (fresh env_set sqs_rejects)
           false VNone (VStr ("Failed to send message to SQS: " ++ access_denied)) eq_refl).
Defined.

Lemma handler_reports_success_iff_witness :
  exists body,
    fst (handler (import_bridge_lambda (fresh env_set sqs_accepts)) event_ab VNone
                 (fresh env_set sqs_accepts))
    = Return (create_response 200 body).
Proof.
  apply (proj2 (handler_reports_success_iff
                  (import_bridge_lambda (fresh env_set sqs_accepts)) event_ab VNone
                  (fresh env_set sqs_accepts))).
  split; [discriminate | split; [reflexivity |]].
  eexists _, _. split; reflexivity.
Defined.


Lemma handler_client_failure_no_send_witness :
  handler (import_bridge_lambda (no_region env_set sqs_accepts)) event_ab VNone
          (no_region env_set sqs_accepts)
  = (Raise (OtherError "NoRegionError" "You must specify a region."),
     log (EClient "sqs") (no_region env_set sqs_accepts)) /\
  sends (trace (snd (handler (import_bridge_lambda (no_region env_set sqs_accepts)) event_ab VNone
                             (no_region env_set sqs_accepts))))
  = sends (trace (no_region env_set sqs_accepts)).
Proof.
  apply (handler_client_failure_no_send
           (import_bridge_lambda (no_region env_set sqs_accepts)) event_ab VNone
           (no_region env_set sqs_accepts)).
  - discriminate.
  - reflexivity.
Defined.

Lemma handler_response_without_MessageId_witness :
  handler (import_bridge_lambda (fresh env_set sqs_accepts_without_id)) event_ab VNone
          (fresh env_set sqs_accepts_without_id)
  = (Raise (OtherError "KeyError" "'MessageId'"),
     log (ESend queue_address (dq "{'a': '1', 'b': '2'}"))
         (log (EClient "sqs") (fresh env_set sqs_accepts_without_id))).
Proof.
  apply (handler_response_without_MessageId
           (import_bridge_lambda (fresh env_set sqs_accepts_without_id)) event_ab VNone
           (fresh env_set sqs_accepts_without_id)
           [("MD5OfMessageBody", VStr "99914b932bd37a50b983c5e7c90ae93b")]).
  - discriminate.
  - reflexivity.
  - reflexivity.
  - reflexivity.
Defined.



Lemma handler_missing_response_iff_witness :
  fst (handler (import_bridge_lambda (fresh env_unset sqs_accepts)) event_ab VNone
               (fresh env_unset sqs_accepts))
  = Return (create_response 500
              (VDict [("message", VStr "Missing SQS queue URL configuration")])).
Proof.
  apply (proj2 (handler_missing_response_iff
                  (import_bridge_lambda (fresh env_unset sqs_accepts)) event_ab VNone
                  (fresh env_unset sqs_accepts))).
  reflexivity.
Defined.



